(** * The tolerant A2A client of [python_a2a.py]

    A shallow embedding of [_extract_text_and_conv], [A2AClient._try_post]
    and [A2AClient.send_message], with the properties the specification
    states about them.

    Python values are an inductive type, Python exceptions are an explicit
    [Raise] result, and the HTTP transport ([requests.post]) is a function
    that threads a state of the outside world. *)

From Stdlib Require Import ZArith List String Ascii Bool Lia.
From Stdlib Require Import Floats.
Import ListNotations.

Local Open Scope list_scope.
Local Open Scope string_scope.
Set Warnings "-register-all".

(** ** Python values *)

(** What [r.json()] can return, and what the outbound payload is made of.
    A [dict] keeps its items in insertion order; its keys are strings. *)
Inductive value : Type :=
| VNone
| VBool (b : bool)
| VInt (z : Z)
| VFloat (f : float)
| VStr (s : string)
| VList (l : list value)
| VDict (d : list (string * value)).

(** [bool(v)]: what [if v] and [not v] test. *)
Definition truthy (v : value) : bool :=
  match v with
  | VNone => false
  | VBool b => b
  | VInt z => negb (z =? 0)%Z
  | VFloat f => negb (PrimFloat.eqb f 0%float)
  | VStr s => match s with EmptyString => false | String _ _ => true end
  | VList l => match l with [] => false | _ :: _ => true end
  | VDict d => match d with [] => false | _ :: _ => true end
  end.

(** [type(v).__name__] *)
Definition type_name (v : value) : string :=
  match v with
  | VNone => "NoneType"
  | VBool _ => "bool"
  | VInt _ => "int"
  | VFloat _ => "float"
  | VStr _ => "str"
  | VList _ => "list"
  | VDict _ => "dict"
  end.

(** [a or b] *)
Definition py_or (a b : value) : value := if truthy a then a else b.

(** An [Optional[str]] seen as a value. *)
Definition of_optional (o : option string) : value :=
  match o with
  | Some s => VStr s
  | None => VNone
  end.

(** ** Exceptions *)

(** An exception object: [type(e).__name__], [str(e)], and whether
    [isinstance(e, requests.Timeout)].  Only subclasses of [Exception] are
    modelled, which is what [requests] and the interpreter raise here. *)
Record exn : Type := mkExn {
  exn_class : string;
  exn_msg : string;
  exn_is_timeout : bool
}.

Inductive result (A : Type) : Type :=
| Ok (a : A)
| Raise (e : exn).
Arguments Ok {A} a.
Arguments Raise {A} e.

Definition rbind {A B : Type} (r : result A) (k : A -> result B) : result B :=
  match r with
  | Ok a => k a
  | Raise e => Raise e
  end.

Declare Scope py_scope.
Delimit Scope py_scope with py.
Notation "x <- c ;; k" := (rbind c (fun x => k))
  (at level 61, c at next level, right associativity) : py_scope.

(** The error of an attribute lookup that fails: [v.attr] on a value that
    has no such attribute. *)
Definition AttributeError (v : value) (attr : string) : exn :=
  mkExn "AttributeError"
        ("'" ++ type_name v ++ "' object has no attribute '" ++ attr ++ "'")
        false.

(** ** Dictionaries *)

Fixpoint dict_lookup (d : list (string * value)) (k : string) : option value :=
  match d with
  | [] => None
  | (k', v) :: rest => if String.eqb k' k then Some v else dict_lookup rest k
  end.

(** [d.get(k)] on a [dict]: the value, or [None]. *)
Definition dict_get (d : list (string * value)) (k : string) : value :=
  match dict_lookup d k with
  | Some v => v
  | None => VNone
  end.

(** [d.setdefault(k, v)]: a present key keeps its value; an absent one is
    added at the end. *)
Fixpoint dict_setdefault (d : list (string * value)) (k : string) (v : value)
  : list (string * value) :=
  match d with
  | [] => [(k, v)]
  | (k', v') :: rest =>
      if String.eqb k' k then d else (k', v') :: dict_setdefault rest k v
  end.

(** [data.get(k)] on any value: only a [dict] has the method. *)
Definition py_get (data : value) (k : string) : result value :=
  match data with
  | VDict d => Ok (dict_get d k)
  | _ => Raise (AttributeError data "get")
  end.

(** ** Strings *)

(** [c.isspace()] for a character below 256. *)
Definition isspace (c : ascii) : bool :=
  let n := nat_of_ascii c in
  (((9 <=? n) && (n <=? 13)) || ((28 <=? n) && (n <=? 32))
   || (n =? 133) || (n =? 160))%nat.

(** [s.lstrip(chars)] and [s.rstrip(chars)], the character set as a test. *)
Fixpoint lstrip_by (p : ascii -> bool) (s : string) : string :=
  match s with
  | EmptyString => EmptyString
  | String c r => if p c then lstrip_by p r else s
  end.

Fixpoint rstrip_by (p : ascii -> bool) (s : string) : string :=
  match s with
  | EmptyString => EmptyString
  | String c r =>
      match rstrip_by p r with
      | EmptyString => if p c then EmptyString else String c EmptyString
      | String c' r' => String c (String c' r')
      end
  end.

(** [s.strip()] *)
Definition strip (s : string) : string := rstrip_by isspace (lstrip_by isspace s).

(** [s.rstrip("/")] *)
Definition rstrip_slash (s : string) : string :=
  rstrip_by (fun c => Ascii.eqb c "/"%char) s.

(** [s.endswith(suffix)] *)
Definition endswith (s suffix : string) : bool :=
  let n := String.length s in
  let m := String.length suffix in
  (m <=? n)%nat && String.eqb (substring (n - m) m s) suffix.

(** [sub in s] *)
Fixpoint contains (sub s : string) : bool :=
  prefix sub s ||
  match s with
  | EmptyString => false
  | String _ r => contains sub r
  end.

(** [c.lower()] for a character below 256: A-Z, and the Latin-1 capitals. *)
Definition lower_char (c : ascii) : ascii :=
  let n := nat_of_ascii c in
  if (((65 <=? n) && (n <=? 90))
      || ((192 <=? n) && (n <=? 222) && negb (n =? 215)))%nat
  then ascii_of_nat (n + 32)
  else c.

Fixpoint lower (s : string) : string :=
  match s with
  | EmptyString => EmptyString
  | String c r => String (lower_char c) (lower r)
  end.

(** ** Messages and replies *)

Module MessageRole.
Definition USER : string := "user".
Definition ASSISTANT : string := "assistant".
Definition SYSTEM : string := "system".
Definition AGENT : string := "agent".
End MessageRole.

Record TextContent : Type := mkTextContent { text : string }.

Record Message : Type := mkMessage {
  role : string;
  content : TextContent;
  conversation_id : option string;
  metadata : option (list (string * value));
  parent_message_id : option string;
  message_id : option string
}.

(** The reply.  Its conversation id is annotated [Optional[str]], and holds
    whatever truthy value the payload carried, or the caller's own id. *)
Record _A2AResponse : Type := mkResponse {
  reply_content : TextContent;
  reply_conversation_id : value
}.

Definition reply_text (r : _A2AResponse) : string := text (reply_content r).

(** The marker in front of every error text. *)
Definition error_marker : string := "[error] ".

(** The text of the reply to a timeout. *)
Definition timeout_marker : string := "[error] request timeout".

(** ** The normalizer: [_extract_text_and_conv] *)

(** [v.strip()] is truthy: some character of [v] is not white space. *)
Definition nonblank (v : string) : bool := truthy (VStr (strip v)).

(** One numbered block of the normalizer: it returns a text, or falls
    through to the next block ([None]), or raises. *)
Definition or_else {A : Type} (r : result (option A)) (k : result A) : result A :=
  match r with
  | Ok (Some a) => Ok a
  | Ok None => k
  | Raise e => Raise e
  end.

Notation "r 'orelse' k" := (or_else r k)
  (at level 62, right associativity) : py_scope.

(** Lines 42-48: top level, then [metadata.conversation_id], then the
    fallback; each step is taken when the value so far is falsy. *)
Definition resolve_conv (data : value) (fallback_conv : option string)
  : result value :=
  (conv <- py_get data "conversation_id" ;;
   conv <- (if negb (truthy conv)
            then md <- py_get data "metadata" ;;
                 match md with
                 | VDict m => Ok (dict_get m "conversation_id")
                 | _ => Ok conv
                 end
            else Ok conv) ;;
   Ok (if negb (truthy conv) then of_optional fallback_conv else conv))%py.

(** 1) [content.text], or a [content] that is a string. *)
Definition from_content (data : value) : result (option string) :=
  (c <- py_get data "content" ;;
   match c with
   | VDict cd =>
       match dict_get cd "text" with
       | VStr t => Ok (Some t)
       | _ => Ok None
       end
   | VStr t => Ok (Some t)
   | _ => Ok None
   end)%py.

(** 2) the first of the given top-level keys that holds a string. *)
Fixpoint from_top_level (data : value) (keys : list string)
  : result (option string) :=
  match keys with
  | [] => Ok None
  | k :: rest =>
      (v <- py_get data k ;;
       match v with
       | VStr t => Ok (Some t)
       | _ => from_top_level data rest
       end)%py
  end.

(** 3) [parts[0].text] *)
Definition from_parts (data : value) : result (option string) :=
  (parts <- py_get data "parts" ;;
   match parts with
   | VList (VDict first :: _) =>
       match dict_get first "text" with
       | VStr t => Ok (Some t)
       | _ => Ok None
       end
   | _ => Ok None
   end)%py.

(** 4) the error fields: a non-blank string, or a mapping whose [message]
    or [text] is one. *)
Fixpoint from_error_fields (data : value) (keys : list string)
  : result (option string) :=
  match keys with
  | [] => Ok None
  | key :: rest =>
      (v <- py_get data key ;;
       match v with
       | VStr t =>
           if nonblank t then Ok (Some ("[error] " ++ t))
           else from_error_fields data rest
       | VDict vd =>
           match py_or (dict_get vd "message") (dict_get vd "text") with
           | VStr msg =>
               if nonblank msg then Ok (Some ("[error] " ++ msg))
               else from_error_fields data rest
           | _ => from_error_fields data rest
           end
       | _ => from_error_fields data rest
       end)%py
  end.

(** [errors[0]]: a mapping with [message], [detail] or [title], or a
    string. *)
Definition from_errors (data : value) : result (option string) :=
  (errs <- py_get data "errors" ;;
   match errs with
   | VList (VDict first :: _) =>
       match py_or (py_or (dict_get first "message") (dict_get first "detail"))
                   (dict_get first "title") with
       | VStr msg => if nonblank msg then Ok (Some ("[error] " ++ msg)) else Ok None
       | _ => Ok None
       end
   | VList (VStr first :: _) =>
       if nonblank first then Ok (Some ("[error] " ++ first)) else Ok None
   | _ => Ok None
   end)%py.

(** 5) a payload that is a string. *)
Definition from_bare_string (data : value) : result (option string) :=
  match data with
  | VStr t => Ok (Some t)
  | _ => Ok None
  end.

Section Normalizer.

(** [str(v)], as an f-string renders a value: Python's own formatting, taken
    as given. *)
Variable py_str : value -> string.

(** 6) the status the client stored in the payload, if truthy. *)
Definition from_http_status (data : value) : result (option string) :=
  (status <- py_get data "_http_status" ;;
   if truthy status
   then Ok (Some ("(A2A) HTTP " ++ py_str status ++ ", body: " ++ py_str data))
   else Ok None)%py.

(** Lines 50-106: the blocks in the order of the source; the first that
    returns decides. *)
Definition extract_text (data : value) : result string :=
  (from_content data orelse
   from_top_level data ["response"; "text"; "message"] orelse
   from_parts data orelse
   from_error_fields data ["error"; "detail"; "description"] orelse
   from_errors data orelse
   from_bare_string data orelse
   from_http_status data orelse
   Ok ("(A2A) unexpected response: " ++ py_str data))%py.

Definition _extract_text_and_conv (data : value) (fallback_conv : option string)
  : result _A2AResponse :=
  (conv <- resolve_conv data fallback_conv ;;
   t <- extract_text data ;;
   Ok (mkResponse (mkTextContent t) conv))%py.

End Normalizer.

(** ** The transport *)

(** What [requests.post] hands back: the fields of the response object that
    the client reads.  [json] is [r.json()], which raises on a body that
    does not decode. *)
Record Response : Type := mkHTTP {
  status_code : Z;
  header_content_type : option string;
  json : result value;
  body_text : string
}.

(** A computation that talks to the outside world [W] and may raise. *)
Definition IO (W A : Type) : Type := W -> result A * W.

Definition ret {W A : Type} (a : A) : IO W A := fun w => (Ok a, w).

Definition raise {W A : Type} (e : exn) : IO W A := fun w => (Raise e, w).

Definition bind {W A B : Type} (m : IO W A) (k : A -> IO W B) : IO W B :=
  fun w =>
    match m w with
    | (Ok a, w') => k a w'
    | (Raise e, w') => (Raise e, w')
    end.

(** [try: m  except Exception as e: h e] *)
Definition catch {W A : Type} (m : IO W A) (h : exn -> IO W A) : IO W A :=
  fun w =>
    match m w with
    | (Ok a, w') => (Ok a, w')
    | (Raise e, w') => h e w'
    end.

(** A computation that does not touch the world. *)
Definition lift {W A : Type} (r : result A) : IO W A := fun w => (r, w).

Declare Scope io_scope.
Delimit Scope io_scope with io.
Notation "x <- c ;; k" := (bind c (fun x => k))
  (at level 61, c at next level, right associativity) : io_scope.

(** ** The client *)

Record A2AClient : Type := mkClient {
  base_url : string;
  timeout : Z
}.

(** [A2AClient.__init__]: [(base_url or "").rstrip("/")] *)
Definition A2AClient_init (url : option string) (timeout : Z) : A2AClient :=
  mkClient (rstrip_slash (match url with Some u => u | None => "" end)) timeout.

(** Lines 122-130: the addresses to try, in order. *)
Definition candidates (self : A2AClient) : list string :=
  List.app
    (if negb (endswith (base_url self) "/a2a")
     then [base_url self ++ "/a2a"]
     else [])
    [base_url self;
     base_url self ++ "/send";
     base_url self ++ "/message";
     base_url self ++ "/messages"].

(** [{"response": r.text}] *)
Definition wrapped (r : Response) : value :=
  VDict [("response", VStr (body_text r))].

(** [(r.headers.get("Content-Type") or "").lower()] *)
Definition ctype (r : Response) : string :=
  lower (match header_content_type r with
         | Some h => h
         | None => ""
         end).

(** Lines 137-147: from the response to the payload of the normalizer. *)
Definition decode_response (r : Response) : value :=
  let data :=
    if contains "application/json" (ctype r)
    then match json r with
         | Ok v => v
         | Raise _ => wrapped r
         end
    else wrapped r in
  match data with
  | VDict d => VDict (dict_setdefault d "_http_status" (VInt (status_code r)))
  | _ => data
  end.

(** The headers of every request. *)
Definition headers : list (string * string) :=
  [("Content-Type", "application/json")].

Section Client.

Variable py_str : value -> string.

(** The state of the network and of the servers behind it. *)
Variable World : Type.

(** [requests.post(url, json=..., timeout=..., headers=...)] *)
Variable post :
  string -> value -> Z -> list (string * string) -> IO World Response.

(** The loop of lines 134-150 over the addresses that are left, followed by
    lines 151-153.  An exception object is truthy. *)
Fixpoint try_candidates (self : A2AClient) (json_payload : value)
    (urls : list string) (last_err : option exn) : IO World value :=
  match urls with
  | [] =>
      match last_err with
      | Some e => raise e
      | None => ret VNone
      end
  | url :: rest =>
      catch (r <- post url json_payload (timeout self) headers ;;
             ret (decode_response r))%io
            (fun e => try_candidates self json_payload rest (Some e))
  end.

Definition _try_post (self : A2AClient) (json_payload : value)
  : IO World value :=
  try_candidates self json_payload (candidates self) None.

(** Lines 159-166 *)
Definition payload_of (message : Message) : value :=
  VDict [("role", VStr (role message));
         ("content", VDict [("type", VStr "text");
                            ("text", VStr (text (content message)))]);
         ("conversation_id", of_optional (conversation_id message));
         ("metadata", VDict match metadata message with
                            | Some (item :: items) => item :: items
                            | _ => []
                            end);
         ("parent_message_id", of_optional (parent_message_id message));
         ("message_id", of_optional (message_id message))].

(** The two handlers of lines 170-173, the first for
    [requests.Timeout]. *)
Definition on_exception (message : Message) (e : exn) : _A2AResponse :=
  if exn_is_timeout e
  then mkResponse (mkTextContent "[error] request timeout")
                  (of_optional (conversation_id message))
  else mkResponse (mkTextContent ("[error] " ++ exn_class e ++ ": " ++ exn_msg e))
                  (of_optional (conversation_id message)).

Definition send_message (self : A2AClient) (message : Message)
  : IO World _A2AResponse :=
  let payload := payload_of message in
  catch (data <- _try_post self payload ;;
         lift (_extract_text_and_conv py_str data (conversation_id message)))%io
        (fun e => ret (on_exception message e)).

(** The world after every address of [urls] was posted to in turn. *)
Fixpoint world_after (self : A2AClient) (json_payload : value)
    (urls : list string) (w : World) : World :=
  match urls with
  | [] => w
  | url :: rest =>
      world_after self json_payload rest
        (snd (post url json_payload (timeout self) headers w))
  end.

(** Every attempt of the loop over [urls], started in world [w], raises,
    and each exception satisfies [P]. *)
Fixpoint all_raise (P : exn -> Prop) (self : A2AClient) (json_payload : value)
    (urls : list string) (w : World) : Prop :=
  match urls with
  | [] => True
  | url :: rest =>
      match post url json_payload (timeout self) headers w with
      | (Raise e, w') => P e /\ all_raise P self json_payload rest w'
      | (Ok _, _) => False
      end
  end.

End Client.

Arguments try_candidates {World} post self json_payload urls last_err _.
Arguments _try_post {World} post self json_payload _.
Arguments send_message py_str {World} post self message _.
Arguments world_after {World} post self json_payload urls w.
Arguments all_raise {World} post P self json_payload urls w.

(** ** The specification's wording *)

(** The conversation id in the specification's words: the top-level field
    if present, else the member of the [metadata] mapping if present, else
    the id of the outbound message.  A field is present when it holds a
    truthy value. *)
Definition conv_by_priority (d : list (string * value)) (outbound : option string)
  : value :=
  if truthy (dict_get d "conversation_id") then dict_get d "conversation_id"
  else
    match dict_get d "metadata" with
    | VDict m =>
        if truthy (dict_get m "conversation_id")
        then dict_get m "conversation_id"
        else of_optional outbound
    | _ => of_optional outbound
    end.

(** The content type indicates JSON. *)
Definition indicates_json (r : Response) : bool :=
  contains "application/json" (ctype r).

(** The response parsing policy in the specification's words, for one
    response: the body [v] is the decoded one exactly when the content type
    indicates JSON and the wrapped raw text otherwise, and when it is a
    mapping, what the normalizer receives is a mapping that holds the
    response's status code under [_http_status]. *)
Definition parsing_policy_as_stated (r : Response) : Prop :=
  exists v,
    (if indicates_json r then json r = Ok v else v = wrapped r) /\
    (forall d, v = VDict d ->
       exists d', decode_response r = VDict d' /\
                  dict_lookup d' "_http_status" = Some (VInt (status_code r))).

(** What the normalizer receives for the body [v] of a response with the
    given status: a mapping gains [_http_status] unless it has the key
    already, and keeps every other key; any other value is passed on as it
    is. *)
Definition handed_over (status : Z) (v out : value) : Prop :=
  match v with
  | VDict d =>
      exists d',
        out = VDict d' /\
        (forall k, k <> "_http_status" -> dict_lookup d' k = dict_lookup d k) /\
        dict_lookup d' "_http_status"
        = Some (match dict_lookup d "_http_status" with
                | Some own => own
                | None => VInt status
                end)
  | _ => out = v
  end.

(** ** Transports and values for the examples *)

(** A rendering of values that stands for [str] in the examples. *)
Definition show_opaque (v : value) : string := "<" ++ type_name v ++ ">".

Definition ReadTimeout : exn :=
  mkExn "ReadTimeout" "Read timed out. (read timeout=60)" true.

Definition ConnectionError : exn :=
  mkExn "ConnectionError" "Connection refused" false.

(** The world of the examples: the addresses posted to so far. *)
Definition Log : Type := list string.

(** Every request times out. *)
Definition post_timeout (url : string) (_ : value) (_ : Z)
    (_ : list (string * string)) : IO Log Response :=
  fun log => (Raise ReadTimeout, (log ++ [url])%list).

(** Every connection is refused. *)
Definition post_refused (url : string) (_ : value) (_ : Z)
    (_ : list (string * string)) : IO Log Response :=
  fun log => (Raise ConnectionError, (log ++ [url])%list).

(** The first [n] requests are refused, the following ones answered
    with [r]. *)
Definition post_flaky (n : nat) (r : Response) (url : string) (_ : value)
    (_ : Z) (_ : list (string * string)) : IO Log Response :=
  fun log =>
    if (List.length log <? n)%nat
    then (Raise ConnectionError, (log ++ [url])%list)
    else (Ok r, (log ++ [url])%list).

Definition a_client : A2AClient := A2AClient_init (Some "http://localhost:6000/") 60.

Definition a_message : Message :=
  mkMessage MessageRole.USER (mkTextContent "hello") (Some "c1") None None None.

(** The character [34], the double quote. *)
Definition dquote : string := String (ascii_of_nat 34) EmptyString.

(** [s] between double quotes. *)
Definition quoted (s : string) : string := dquote ++ s ++ dquote.

(** A JSON answer of a bridge, with status 500. *)
Definition json_reply : Response :=
  mkHTTP 500 (Some "application/json; charset=utf-8")
         (Ok (VDict [("content", VDict [("text", VStr "hi"); ("type", VStr "text")]);
                     ("response", VStr "other");
                     ("conversation_id", VStr "c2")]))
         ("{" ++ quoted "content" ++ ": {" ++ quoted "text" ++ ": " ++ quoted "hi"
          ++ ", " ++ quoted "type" ++ ": " ++ quoted "text" ++ "}, "
          ++ quoted "response" ++ ": " ++ quoted "other" ++ ", "
          ++ quoted "conversation_id" ++ ": " ++ quoted "c2" ++ "}").

(** A JSON answer whose body is one string. *)
Definition string_reply : Response :=
  mkHTTP 200 (Some "application/json") (Ok (VStr "hello")) (quoted "hello").

(** A JSON answer that has an [_http_status] of its own. *)
Definition own_status_reply : Response :=
  mkHTTP 200 (Some "application/json")
         (Ok (VDict [("_http_status", VInt 0)]))
         ("{" ++ quoted "_http_status" ++ ": 0}").

(** An answer labelled JSON whose body does not decode. *)
Definition broken_json_reply : Response :=
  mkHTTP 200 (Some "Application/JSON")
         (Raise (mkExn "JSONDecodeError" "Expecting value: line 1 column 1 (char 0)" false))
         "<html>oops</html>".

(** A plain text answer. *)
Definition text_reply : Response :=
  mkHTTP 404 (Some "text/plain") (Raise (mkExn "JSONDecodeError" "Expecting value" false))
         "not found".

(** A bridge that sends every request back as JSON.  The raw text of the
    body stands for its serialization; it is not read when the body
    decodes. *)
Definition post_echo (url : string) (json_payload : value) (_ : Z)
    (_ : list (string * string)) : IO Log Response :=
  fun log =>
    (Ok (mkHTTP 200 (Some "application/json") (Ok json_payload)
           (show_opaque json_payload)),
     (log ++ [url])%list).

(** A JSON answer whose body is a list. *)
Definition list_reply : Response :=
  mkHTTP 200 (Some "application/json") (Ok (VList [VStr "a"; VStr "b"]))
         ("[" ++ quoted "a" ++ ", " ++ quoted "b" ++ "]").

(** ** Classes of payloads *)

(** [isinstance(v, str)] *)
Definition is_str (v : value) : bool :=
  match v with
  | VStr _ => true
  | _ => false
  end.

(** The mapping has a [content] that block 1 accepts: a string, or a mapping
    with a string under [text]. *)
Definition content_usable (d : list (string * value)) : bool :=
  match dict_get d "content" with
  | VStr _ => true
  | VDict c => is_str (dict_get c "text")
  | _ => false
  end.

(** One of [response], [text], [message] holds a string. *)
Definition top_level_usable (d : list (string * value)) : bool :=
  is_str (dict_get d "response") || is_str (dict_get d "text")
  || is_str (dict_get d "message").

(** [parts] is a list whose first element is a mapping with a string under
    [text]. *)
Definition parts_usable (d : list (string * value)) : bool :=
  match dict_get d "parts" with
  | VList (VDict first :: _) => is_str (dict_get first "text")
  | _ => false
  end.

(** None of the blocks 1 to 3 finds a text in the mapping. *)
Definition no_plain_text (d : list (string * value)) : bool :=
  negb (content_usable d) && negb (top_level_usable d) && negb (parts_usable d).

(** The last character of a string, if any. *)
Fixpoint last_char (s : string) : option ascii :=
  match s with
  | EmptyString => None
  | String c EmptyString => Some c
  | String _ r => last_char r
  end.

(** The keys the blocks 1 to 5 of the normalizer read. *)
Definition text_keys : list string :=
  ["content"; "response"; "text"; "message"; "parts";
   "error"; "detail"; "description"; "errors"].

(** [isinstance(v, dict)] *)
Definition is_dict (v : value) : bool :=
  match v with
  | VDict _ => true
  | _ => false
  end.

(** The loop of [_try_post], started in world [w], gets its first answer
    [r] from some address after every address before it raised, and leaves
    the world [w']. *)
Definition first_answer {World : Type}
    (post : string -> value -> Z -> list (string * string) -> IO World Response)
    (self : A2AClient) (json_payload : value) (w : World)
    (r : Response) (w' : World) : Prop :=
  exists pre url rest,
    candidates self = (pre ++ url :: rest)%list /\
    all_raise post (fun _ => True) self json_payload pre w /\
    post url json_payload (timeout self) headers
         (world_after post self json_payload pre w) = (Ok r, w').

(** * Properties *)

(** ** Dictionaries *)

Lemma dict_get_found (d : list (string * value)) (k : string) (v : value) :
  dict_lookup d k = Some v -> dict_get d k = v.
Proof. unfold dict_get; intros ->; reflexivity. Qed.

Lemma dict_get_missing (d : list (string * value)) (k : string) :
  dict_lookup d k = None -> dict_get d k = VNone.
Proof. unfold dict_get; intros ->; reflexivity. Qed.

Lemma lookup_setdefault_same (d : list (string * value)) (k : string) (v : value) :
  dict_lookup (dict_setdefault d k v) k
  = Some (match dict_lookup d k with Some own => own | None => v end).
Proof.
  induction d as [|[k' v'] d IH]; simpl.
  - rewrite String.eqb_refl; reflexivity.
  - destruct (String.eqb k' k) eqn:E; simpl; rewrite E; [reflexivity | exact IH].
Qed.

Lemma lookup_setdefault_other (d : list (string * value)) (k k0 : string) (v : value) :
  k0 <> k -> dict_lookup (dict_setdefault d k v) k0 = dict_lookup d k0.
Proof.
  intros Hne.
  induction d as [|[k' v'] d IH]; simpl.
  - destruct (String.eqb_spec k k0) as [->|_]; [contradiction | reflexivity].
  - destruct (String.eqb k' k) eqn:E; simpl; [reflexivity |].
    rewrite IH; reflexivity.
Qed.

(** ** Strings *)

Lemma prefix_append (s t : string) : prefix s (s ++ t) = true.
Proof.
  induction s as [|c s IH]; simpl.
  - destruct t; reflexivity.
  - destruct (ascii_dec c c) as [_|Hne]; [exact IH | contradiction].
Qed.

(** ** The normalizer on a mapping *)

Lemma resolve_conv_dict (d : list (string * value)) (outbound : option string) :
  resolve_conv (VDict d) outbound = Ok (conv_by_priority d outbound).
Proof.
  unfold resolve_conv, conv_by_priority; simpl.
  destruct (truthy (dict_get d "conversation_id")) eqn:Htop; simpl.
  - rewrite Htop; reflexivity.
  - destruct (dict_get d "metadata") as [| | | | | |m]; simpl;
      try (rewrite Htop; reflexivity).
    destruct (truthy (dict_get m "conversation_id")); reflexivity.
Qed.

Lemma from_content_dict (d : list (string * value)) :
  exists o, from_content (VDict d) = Ok o.
Proof.
  unfold from_content; simpl.
  destruct (dict_get d "content") as [| | | | | |cd]; eauto.
  destruct (dict_get cd "text"); eauto.
Qed.

Lemma from_top_level_dict (d : list (string * value)) (keys : list string) :
  exists o, from_top_level (VDict d) keys = Ok o.
Proof.
  induction keys as [|k keys IH]; simpl; eauto.
  destruct (dict_get d k); eauto.
Qed.

Lemma from_parts_dict (d : list (string * value)) :
  exists o, from_parts (VDict d) = Ok o.
Proof.
  unfold from_parts; simpl.
  destruct (dict_get d "parts") as [| | | | |[|[| | | | | |first] ?]|]; eauto.
  destruct (dict_get first "text"); eauto.
Qed.

Lemma from_error_fields_dict (d : list (string * value)) (keys : list string) :
  exists o, from_error_fields (VDict d) keys = Ok o.
Proof.
  induction keys as [|k keys IH]; simpl; eauto.
  destruct (dict_get d k) as [| | | |t| |vd]; eauto.
  - destruct (nonblank t); eauto.
  - destruct (py_or _ _) as [| | | |msg| |]; eauto.
    destruct (nonblank msg); eauto.
Qed.

Lemma from_errors_dict (d : list (string * value)) :
  exists o, from_errors (VDict d) = Ok o.
Proof.
  unfold from_errors; simpl.
  destruct (dict_get d "errors") as [| | | | |[|[| | | |t| |first] ?]|]; eauto.
  - destruct (nonblank t); eauto.
  - destruct (py_or _ _) as [| | | |msg| |]; eauto.
    destruct (nonblank msg); eauto.
Qed.

Section NormalizerFacts.

Variable py_str : value -> string.

Lemma from_http_status_dict (d : list (string * value)) :
  exists o, from_http_status py_str (VDict d) = Ok o.
Proof.
  unfold from_http_status; simpl.
  destruct (truthy (dict_get d "_http_status")); eauto.
Qed.

(** On a mapping no block raises, so a text always comes out. *)
Lemma extract_text_dict (d : list (string * value)) :
  exists t, extract_text py_str (VDict d) = Ok t.
Proof.
  unfold extract_text.
  destruct (from_content_dict d) as [[t|] ->]; cbn [or_else from_bare_string]; eauto.
  destruct (from_top_level_dict d ["response"; "text"; "message"]) as [[t|] ->];
    cbn [or_else from_bare_string]; eauto.
  destruct (from_parts_dict d) as [[t|] ->]; cbn [or_else from_bare_string]; eauto.
  destruct (from_error_fields_dict d ["error"; "detail"; "description"])
    as [[t|] ->]; cbn [or_else from_bare_string]; eauto.
  destruct (from_errors_dict d) as [[t|] ->]; cbn [or_else from_bare_string]; eauto.
  destruct (from_http_status_dict d) as [[t|] ->]; cbn [or_else from_bare_string]; eauto.
Qed.

Lemma extract_dict (d : list (string * value)) (outbound : option string) :
  exists t,
    extract_text py_str (VDict d) = Ok t /\
    _extract_text_and_conv py_str (VDict d) outbound
    = Ok (mkResponse (mkTextContent t) (conv_by_priority d outbound)).
Proof.
  destruct (extract_text_dict d) as [t Ht].
  exists t; split; [exact Ht |].
  unfold _extract_text_and_conv.
  rewrite resolve_conv_dict, Ht; reflexivity.
Qed.

Lemma extract_text_content (d c : list (string * value)) (T : string) :
  dict_lookup d "content" = Some (VDict c) ->
  dict_lookup c "text" = Some (VStr T) ->
  extract_text py_str (VDict d) = Ok T.
Proof.
  intros Hc Ht.
  unfold extract_text, from_content; simpl.
  rewrite (dict_get_found _ _ _ Hc), (dict_get_found _ _ _ Ht); reflexivity.
Qed.

(** C3. A mapping that holds [{"content": {"text": T}}], [T] a string, is
    normalized to the text [T]; this is so too when the mapping also has a
    string under ["response"]: the content text is the one returned. *)
Theorem content_text_takes_precedence
    (d c : list (string * value)) (T : string) (outbound : option string)
    (Hcontent : dict_lookup d "content" = Some (VDict c))
    (Htext : dict_lookup c "text" = Some (VStr T)) :
  (exists conv,
     _extract_text_and_conv py_str (VDict d) outbound
     = Ok (mkResponse (mkTextContent T) conv)) /\
  (forall R, dict_lookup d "response" = Some (VStr R) ->
     exists conv,
       _extract_text_and_conv py_str (VDict d) outbound
       = Ok (mkResponse (mkTextContent T) conv)).
Proof.
  assert (H : exists conv,
             _extract_text_and_conv py_str (VDict d) outbound
             = Ok (mkResponse (mkTextContent T) conv)).
  { destruct (extract_dict d outbound) as (t & Ht & H).
    rewrite (extract_text_content d c T Hcontent Htext) in Ht.
    injection Ht as <-. eauto. }
  split; [exact H | intros R _; exact H].
Qed.

(** C4. The conversation id of the reply follows the priority order: the
    top-level field of the payload if present, else the member of its
    [metadata] mapping if present, else the id of the outbound message
    (present: holding a truthy value).  With the outbound id ["c1"], the
    response [{"conversation_id": "c2"}] gives ["c2"], and a response with
    no conversation id anywhere gives ["c1"]. *)
Theorem conversation_id_priority :
  (forall d outbound,
     exists t,
       _extract_text_and_conv py_str (VDict d) outbound
       = Ok (mkResponse t (conv_by_priority d outbound))) /\
  (exists t,
     _extract_text_and_conv py_str (VDict [("conversation_id", VStr "c2")]) (Some "c1")
     = Ok (mkResponse t (VStr "c2"))) /\
  (forall d,
     dict_lookup d "conversation_id" = None ->
     (forall m, dict_lookup d "metadata" = Some (VDict m) ->
                dict_lookup m "conversation_id" = None) ->
     exists t,
       _extract_text_and_conv py_str (VDict d) (Some "c1")
       = Ok (mkResponse t (VStr "c1"))).
Proof.
  split; [| split].
  - intros d outbound.
    destruct (extract_dict d outbound) as (t & _ & H); eauto.
  - destruct (extract_dict [("conversation_id", VStr "c2")] (Some "c1"))
      as (t & _ & H); eauto.
  - intros d Htop Hmeta.
    destruct (extract_dict d (Some "c1")) as (t & _ & H).
    exists (mkTextContent t). rewrite H. do 2 f_equal.
    unfold conv_by_priority.
    rewrite (dict_get_missing _ _ Htop); simpl.
    unfold dict_get at 1.
    destruct (dict_lookup d "metadata") as [[| | | | | |m]|] eqn:Hmd;
      try reflexivity.
    rewrite (dict_get_missing _ _ (Hmeta m eq_refl)); reflexivity.
Qed.

(** C5, as the code has it.  A payload that is a bare string does not reach
    the block written for it: the first statement calls [data.get], which a
    string does not have, and the normalizer raises. *)
Theorem bare_string_payload_raises (s : string) (outbound : option string) :
  _extract_text_and_conv py_str (VStr s) outbound
  = Raise (mkExn "AttributeError" "'str' object has no attribute 'get'" false).
Proof. reflexivity. Qed.

(** C9. A mapping with [{"error": "boom"}] and none of [content],
    [response], [text], [message], [parts] is normalized to a returned reply
    whose text is the error marker followed by ["boom"]. *)
Theorem error_field_reply
    (d : list (string * value)) (outbound : option string)
    (Herror : dict_lookup d "error" = Some (VStr "boom"))
    (Hcontent : dict_lookup d "content" = None)
    (Hresponse : dict_lookup d "response" = None)
    (Htext : dict_lookup d "text" = None)
    (Hmessage : dict_lookup d "message" = None)
    (Hparts : dict_lookup d "parts" = None) :
  exists reply,
    _extract_text_and_conv py_str (VDict d) outbound = Ok reply /\
    reply_text reply = error_marker ++ "boom" /\
    prefix error_marker (reply_text reply) = true /\
    contains "boom" (reply_text reply) = true.
Proof.
  destruct (extract_dict d outbound) as (t & Ht & H).
  assert (Hboom : extract_text py_str (VDict d) = Ok "[error] boom").
  { unfold extract_text, from_content, from_parts; simpl.
    rewrite (dict_get_missing _ _ Hcontent), (dict_get_missing _ _ Hresponse),
      (dict_get_missing _ _ Htext), (dict_get_missing _ _ Hmessage),
      (dict_get_missing _ _ Hparts), (dict_get_found _ _ _ Herror).
    reflexivity. }
  rewrite Hboom in Ht; injection Ht as <-.
  eexists; split; [exact H |].
  repeat split.
Qed.

(** C10. A falsy top-level conversation id, the empty string for one, counts
    as absent: the reply takes the truthy id of the [metadata] mapping, or
    else the id of the outbound message, and is the empty string only when
    the outbound message says so. *)
Theorem falsy_conversation_id_is_absent
    (d : list (string * value)) (v : value) (outbound : option string)
    (Htop : dict_lookup d "conversation_id" = Some v)
    (Hfalsy : truthy v = false) :
  exists t conv,
    _extract_text_and_conv py_str (VDict d) outbound = Ok (mkResponse t conv) /\
    conv = match dict_get d "metadata" with
           | VDict m =>
               if truthy (dict_get m "conversation_id")
               then dict_get m "conversation_id"
               else of_optional outbound
           | _ => of_optional outbound
           end /\
    (conv = VStr "" -> outbound = Some "").
Proof.
  destruct (extract_dict d outbound) as (t & _ & H).
  exists (mkTextContent t), (conv_by_priority d outbound).
  split; [exact H |].
  assert (E : conv_by_priority d outbound
              = match dict_get d "metadata" with
                | VDict m =>
                    if truthy (dict_get m "conversation_id")
                    then dict_get m "conversation_id"
                    else of_optional outbound
                | _ => of_optional outbound
                end).
  { unfold conv_by_priority.
    rewrite (dict_get_found _ _ _ Htop), Hfalsy; reflexivity. }
  split; [exact E |].
  rewrite E.
  assert (Hout : of_optional outbound = VStr "" -> outbound = Some "").
  { destruct outbound as [s|]; simpl; [intros [= ->]; reflexivity | discriminate]. }
  destruct (dict_get d "metadata") as [| | | | | |m]; try exact Hout.
  destruct (truthy (dict_get m "conversation_id")) eqn:Hm; [| exact Hout].
  intros Hempty; rewrite Hempty in Hm; discriminate.
Qed.

End NormalizerFacts.

(** ** The response parsing of [_try_post] *)

Lemma setdefault_handed_over (status : Z) (v : value) :
  handed_over status v
    match v with
    | VDict d => VDict (dict_setdefault d "_http_status" (VInt status))
    | _ => v
    end.
Proof.
  destruct v as [| | | | | |d]; simpl; try reflexivity.
  eexists; split; [reflexivity |]; split.
  - intros k Hk; apply lookup_setdefault_other; exact Hk.
  - apply lookup_setdefault_same.
Qed.

(** C8, as the code has it.  The body is the decoded one when the
    lower-cased content type contains [application/json] and the body
    decodes; it is handed over with [_http_status] added unless it is no
    mapping or has the key already.  In every other case the normalizer
    receives [{"response": <raw body text>, "_http_status": <status>}]. *)
Theorem parsing_policy_amended (r : Response) :
  (forall v,
     indicates_json r = true -> json r = Ok v ->
     handed_over (status_code r) v (decode_response r)) /\
  (indicates_json r = false \/ (exists e, json r = Raise e) ->
   decode_response r
   = VDict [("response", VStr (body_text r));
            ("_http_status", VInt (status_code r))]).
Proof.
  unfold indicates_json, decode_response; split.
  - intros v -> ->. apply setdefault_handed_over.
  - intros [-> | [e ->]]; [reflexivity |].
    destruct (contains _ _); reflexivity.
Qed.

(** C8, as the specification states it, fails on two responses: one whose
    JSON body has an [_http_status] of its own, which is kept in place of
    the status code, and one labelled JSON whose body does not decode, which
    is wrapped. *)
Lemma parsing_policy_as_stated_fails :
  ~ parsing_policy_as_stated own_status_reply /\
  ~ parsing_policy_as_stated broken_json_reply.
Proof.
  split; intros (v & Hv & Hd).
  - simpl in Hv. injection Hv as <-.
    destruct (Hd _ eq_refl) as (d' & Hdec & Hst).
    vm_compute in Hdec. injection Hdec as <-.
    vm_compute in Hst. discriminate.
  - simpl in Hv. discriminate.
Qed.

(** ** The client *)

Section ClientFacts.

Variable py_str : value -> string.
Variable World : Type.
Variable post :
  string -> value -> Z -> list (string * string) -> IO World Response.

(** The last address is always [/messages]. *)
Lemma candidates_last (self : A2AClient) :
  exists pre,
    candidates self = List.app pre [base_url self ++ "/messages"] /\
    pre = removelast (candidates self).
Proof.
  unfold candidates.
  destruct (endswith (base_url self) "/a2a"); simpl.
  - exists [base_url self; base_url self ++ "/send"; base_url self ++ "/message"].
    split; reflexivity.
  - exists [base_url self ++ "/a2a"; base_url self; base_url self ++ "/send";
            base_url self ++ "/message"].
    split; reflexivity.
Qed.

(** The loop stops at the first attempt that does not raise. *)
Lemma try_candidates_first_ok
    (P : exn -> Prop) (self : A2AClient) (p : value)
    (url : string) (rest : list string) (r : Response) (w' : World) :
  forall (pre : list string) (last_err : option exn) (w : World),
    all_raise post P self p pre w ->
    post url p (timeout self) headers (world_after post self p pre w) = (Ok r, w') ->
    try_candidates post self p (pre ++ url :: rest)%list last_err w
    = (Ok (decode_response r), w').
Proof.
  induction pre as [|u pre IH]; intros last_err w Hall Hok; simpl in *.
  - unfold catch, bind, ret; rewrite Hok; reflexivity.
  - unfold catch at 1, bind at 1.
    destruct (post u p (timeout self) headers w) as [[r0|e] w1] eqn:E;
      [contradiction |].
    destruct Hall as [_ Hall]. simpl in Hok.
    apply IH; assumption.
Qed.

(** When every attempt raises, the loop ends with the exception of the
    last one. *)
Lemma try_candidates_all_raise
    (P : exn -> Prop) (self : A2AClient) (p : value) (url : string) :
  forall (pre : list string) (last_err : option exn) (w : World),
    all_raise post P self p (pre ++ [url])%list w ->
    exists e w',
      post url p (timeout self) headers (world_after post self p pre w) = (Raise e, w') /\
      P e /\
      try_candidates post self p (pre ++ [url])%list last_err w = (Raise e, w').
Proof.
  induction pre as [|u pre IH]; intros last_err w Hall; simpl in *.
  - destruct (post url p (timeout self) headers w) as [[r0|e] w1] eqn:E;
      [contradiction |].
    exists e, w1. destruct Hall as [HP _].
    repeat split; [exact HP |].
    unfold catch, bind; rewrite E; reflexivity.
  - destruct (post u p (timeout self) headers w) as [[r0|e] w1] eqn:E;
      [contradiction |].
    destruct Hall as [_ Hall]. simpl.
    destruct (IH (Some e) w1 Hall) as (e' & w' & Hpost & HP & Hrun).
    exists e', w'. repeat split; try assumption.
    unfold catch at 1, bind at 1; rewrite E; exact Hrun.
Qed.

(** What [send_message] makes of an exception of its [try] block. *)
Lemma send_message_on_raise
    (self : A2AClient) (message : Message) (e : exn) (w w' : World) :
  _try_post post self (payload_of message) w = (Raise e, w') ->
  send_message py_str post self message w = (Ok (on_exception message e), w').
Proof.
  intros H. unfold send_message, catch, bind. rewrite H. reflexivity.
Qed.

Lemma on_exception_marked (message : Message) (e : exn) :
  prefix error_marker (reply_text (on_exception message e)) = true.
Proof.
  unfold on_exception; destruct (exn_is_timeout e); [reflexivity |].
  apply prefix_append.
Qed.

(** C1. Whatever the message and whatever the transport does, [send_message]
    returns a reply and raises nothing; and when the delivery fails at the
    transport, every address having raised, the text of that reply begins
    with the error marker. *)
Theorem send_message_always_replies
    (self : A2AClient) (message : Message) (w : World) :
  exists reply w',
    send_message py_str post self message w = (Ok reply, w') /\
    (forall e w1,
       _try_post post self (payload_of message) w = (Raise e, w1) ->
       prefix error_marker (reply_text reply) = true).
Proof.
  destruct (_try_post post self (payload_of message) w) as [[data|e] w1] eqn:E.
  - unfold send_message, catch, bind, lift, ret. rewrite E.
    destruct (_extract_text_and_conv py_str data (conversation_id message))
      as [reply|e]; eexists; eexists; (split; [reflexivity | discriminate]).
  - exists (on_exception message e), w1. split.
    + apply send_message_on_raise; exact E.
    + intros _ _ _. apply on_exception_marked.
Qed.

(** C2. The addresses are, in this order, the base with [/a2a] (left out
    when the base ends with it), the base, and the base with [/send],
    [/message] and [/messages].  They are tried in that order, and the first
    attempt that does not raise ends the loop with its decoded response,
    whatever its status code: the world is left as that attempt left it.  So
    when the first address raises and the second answers, the result is the
    decoded response of the second. *)
Theorem try_post_fallback_order (self : A2AClient) (p : value) :
  (candidates self
   = List.app
       (if endswith (base_url self) "/a2a" then [] else [base_url self ++ "/a2a"])
       [base_url self; base_url self ++ "/send"; base_url self ++ "/message";
        base_url self ++ "/messages"]) /\
  (forall pre url rest r w w',
     candidates self = (pre ++ url :: rest)%list ->
     all_raise post (fun _ => True) self p pre w ->
     post url p (timeout self) headers (world_after post self p pre w) = (Ok r, w') ->
     _try_post post self p w = (Ok (decode_response r), w')) /\
  (forall first second rest e r w w1 w2,
     candidates self = first :: second :: rest ->
     post first p (timeout self) headers w = (Raise e, w1) ->
     post second p (timeout self) headers w1 = (Ok r, w2) ->
     _try_post post self p w = (Ok (decode_response r), w2)).
Proof.
  split; [| split].
  - unfold candidates; destruct (endswith (base_url self) "/a2a"); reflexivity.
  - intros pre url rest r w w' Hsplit Hall Hok.
    unfold _try_post. rewrite Hsplit.
    eapply try_candidates_first_ok; eassumption.
  - intros first second rest e r w w1 w2 Hsplit Hfirst Hsecond.
    unfold _try_post. rewrite Hsplit.
    apply (try_candidates_first_ok (fun _ => True) self p second rest r w2
             [first] None w).
    + simpl. rewrite Hfirst. split; exact I.
    + simpl. rewrite Hfirst. exact Hsecond.
Qed.

(** C6. When every attempt raises a timeout, [send_message] returns the
    timeout marker as text, with the conversation id of the outbound
    message. *)
Theorem timeout_reply
    (self : A2AClient) (message : Message) (w : World)
    (Htimeout : all_raise post (fun e => exn_is_timeout e = true) self
                  (payload_of message) (candidates self) w) :
  exists w',
    send_message py_str post self message w
    = (Ok (mkResponse (mkTextContent timeout_marker)
                      (of_optional (conversation_id message))), w').
Proof.
  destruct (candidates_last self) as (pre & Hsplit & _).
  rewrite Hsplit in Htimeout.
  destruct (try_candidates_all_raise _ self (payload_of message) _ pre None w Htimeout)
    as (e & w' & _ & He & Hrun).
  exists w'.
  rewrite (send_message_on_raise self message e w w').
  - unfold on_exception. rewrite He. reflexivity.
  - unfold _try_post. rewrite Hsplit. exact Hrun.
Qed.

(** C7. When every attempt raises, [_try_post] raises the exception of the
    last address tried, [/messages]; and unless it is a timeout,
    [send_message] returns a reply whose text holds the class name and the
    message of that exception, with the conversation id of the outbound
    message. *)
Theorem last_exception_surfaces
    (self : A2AClient) (message : Message) (w : World)
    (Hall : all_raise post (fun _ => True) self (payload_of message)
              (candidates self) w) :
  exists e w',
    post (base_url self ++ "/messages") (payload_of message) (timeout self) headers
         (world_after post self (payload_of message) (removelast (candidates self)) w)
    = (Raise e, w') /\
    _try_post post self (payload_of message) w = (Raise e, w') /\
    (exn_is_timeout e = false ->
     send_message py_str post self message w
     = (Ok (mkResponse
              (mkTextContent (error_marker ++ exn_class e ++ ": " ++ exn_msg e))
              (of_optional (conversation_id message))), w')).
Proof.
  destruct (candidates_last self) as (pre & Hsplit & Hpre).
  rewrite Hsplit in Hall.
  destruct (try_candidates_all_raise _ self (payload_of message) _ pre None w Hall)
    as (e & w' & Hpost & _ & Hrun).
  assert (Hraise : _try_post post self (payload_of message) w = (Raise e, w')).
  { unfold _try_post. rewrite Hsplit. exact Hrun. }
  exists e, w'. rewrite <- Hpre. repeat split; try assumption.
  intros Hnot.
  rewrite (send_message_on_raise self message e w w' Hraise).
  unfold on_exception. rewrite Hnot. reflexivity.
Qed.

End ClientFacts.

(** * Examples *)

(** A bridge that answers with a JSON string: the reply is an error text,
    not the string. *)
Example send_message_bare_string :
  send_message show_opaque (post_flaky 0 string_reply) a_client a_message []
  = (Ok (mkResponse
           (mkTextContent "[error] AttributeError: 'str' object has no attribute 'get'")
           (VStr "c1")),
     ["http://localhost:6000/a2a"]).
Proof. reflexivity. Qed.

Lemma send_message_always_replies_witness :
  exists reply w',
    send_message show_opaque post_refused a_client a_message [] = (Ok reply, w') /\
    prefix error_marker (reply_text reply) = true.
Proof.
  destruct (send_message_always_replies show_opaque Log post_refused
              a_client a_message [])
    as (reply & w' & Hsend & Hmark).
  exists reply, w'. split; [exact Hsend |].
  apply (Hmark ConnectionError
           ["http://localhost:6000/a2a"; "http://localhost:6000";
            "http://localhost:6000/send"; "http://localhost:6000/message";
            "http://localhost:6000/messages"]).
  reflexivity.
Defined.

Lemma try_post_fallback_order_witness :
  _try_post (post_flaky 1 json_reply) a_client (payload_of a_message) []
  = (Ok (decode_response json_reply),
     ["http://localhost:6000/a2a"; "http://localhost:6000"]).
Proof.
  apply (proj1 (proj2 (try_post_fallback_order Log (post_flaky 1 json_reply)
                         a_client (payload_of a_message)))
           ["http://localhost:6000/a2a"] "http://localhost:6000"
           ["http://localhost:6000/send"; "http://localhost:6000/message";
            "http://localhost:6000/messages"]).
  - reflexivity.
  - simpl. split; exact I.
  - reflexivity.
Defined.

Lemma content_text_takes_precedence_witness :
  exists conv,
    _extract_text_and_conv show_opaque
      (VDict [("content", VDict [("text", VStr "hi"); ("type", VStr "text")]);
              ("response", VStr "other");
              ("conversation_id", VStr "c2")])
      (Some "c1")
    = Ok (mkResponse (mkTextContent "hi") conv).
Proof.
  apply (proj2 (content_text_takes_precedence show_opaque
                  [("content", VDict [("text", VStr "hi"); ("type", VStr "text")]);
                   ("response", VStr "other");
                   ("conversation_id", VStr "c2")]
                  [("text", VStr "hi"); ("type", VStr "text")]
                  "hi" (Some "c1") eq_refl eq_refl) "other").
  reflexivity.
Defined.

Lemma conversation_id_priority_witness :
  exists t,
    _extract_text_and_conv show_opaque
      (VDict [("text", VStr "hi"); ("metadata", VDict [("source", VStr "bridge")])])
      (Some "c1")
    = Ok (mkResponse t (VStr "c1")).
Proof.
  apply (proj2 (proj2 (conversation_id_priority show_opaque))).
  - reflexivity.
  - intros m [= <-]. reflexivity.
Defined.

Lemma timeout_reply_witness :
  exists w',
    send_message show_opaque post_timeout a_client a_message []
    = (Ok (mkResponse (mkTextContent "[error] request timeout") (VStr "c1")), w').
Proof.
  apply (timeout_reply show_opaque Log post_timeout a_client a_message []).
  simpl. repeat split.
Defined.

Lemma last_exception_surfaces_witness :
  exists e w',
    post_refused "http://localhost:6000/messages" (payload_of a_message) 60 headers
      ["http://localhost:6000/a2a"; "http://localhost:6000";
       "http://localhost:6000/send"; "http://localhost:6000/message"]
    = (Raise e, w') /\
    _try_post post_refused a_client (payload_of a_message) [] = (Raise e, w') /\
    (exn_is_timeout e = false ->
     send_message show_opaque post_refused a_client a_message []
     = (Ok (mkResponse
              (mkTextContent ("[error] " ++ exn_class e ++ ": " ++ exn_msg e))
              (VStr "c1")), w')).
Proof.
  apply (last_exception_surfaces show_opaque Log post_refused a_client a_message []).
  simpl. repeat split.
Defined.

Lemma parsing_policy_amended_witness :
  handed_over 500 (VDict [("content", VDict [("text", VStr "hi"); ("type", VStr "text")]);
                          ("response", VStr "other");
                          ("conversation_id", VStr "c2")])
    (decode_response json_reply) /\
  decode_response text_reply
  = VDict [("response", VStr "not found"); ("_http_status", VInt 404)].
Proof.
  split.
  - apply (proj1 (parsing_policy_amended json_reply)); reflexivity.
  - apply (proj2 (parsing_policy_amended text_reply)). left. reflexivity.
Defined.

Lemma error_field_reply_witness :
  exists reply,
    _extract_text_and_conv show_opaque
      (VDict [("error", VStr "boom"); ("_http_status", VInt 500)]) (Some "c1")
    = Ok reply /\
    reply_text reply = "[error] boom" /\
    prefix "[error] " (reply_text reply) = true /\
    contains "boom" (reply_text reply) = true.
Proof.
  apply (error_field_reply show_opaque
           [("error", VStr "boom"); ("_http_status", VInt 500)] (Some "c1"));
    reflexivity.
Defined.

Lemma falsy_conversation_id_is_absent_witness :
  exists t conv,
    _extract_text_and_conv show_opaque
      (VDict [("conversation_id", VStr "");
              ("metadata", VDict [("conversation_id", VStr "m1")]);
              ("text", VStr "hi")])
      (Some "c1")
    = Ok (mkResponse t conv) /\
    conv = VStr "m1" /\
    (conv = VStr "" -> Some "c1" = Some "").
Proof.
  apply (falsy_conversation_id_is_absent show_opaque
           [("conversation_id", VStr "");
            ("metadata", VDict [("conversation_id", VStr "m1")]);
            ("text", VStr "hi")]
           (VStr "") (Some "c1")); reflexivity.
Defined.

(** * Further properties of the normalizer *)

Lemma from_content_unusable (d : list (string * value)) :
  content_usable d = false -> from_content (VDict d) = Ok None.
Proof.
  unfold content_usable, from_content; simpl.
  destruct (dict_get d "content") as [| | | | | |c]; try reflexivity;
    try discriminate.
  destruct (dict_get c "text"); try reflexivity; discriminate.
Qed.

Lemma from_top_level_unusable (d : list (string * value)) :
  top_level_usable d = false ->
  from_top_level (VDict d) ["response"; "text"; "message"] = Ok None.
Proof.
  unfold top_level_usable; simpl.
  destruct (dict_get d "response"), (dict_get d "text"), (dict_get d "message");
    simpl; try reflexivity; discriminate.
Qed.

Lemma from_parts_unusable (d : list (string * value)) :
  parts_usable d = false -> from_parts (VDict d) = Ok None.
Proof.
  unfold parts_usable, from_parts; simpl.
  destruct (dict_get d "parts") as [| | | | |[|[| | | | | |first] ?]|];
    try reflexivity.
  destruct (dict_get first "text"); try reflexivity; discriminate.
Qed.

Lemma no_plain_text_inv (d : list (string * value)) :
  no_plain_text d = true ->
  content_usable d = false /\ top_level_usable d = false /\ parts_usable d = false.
Proof.
  unfold no_plain_text.
  destruct (content_usable d), (top_level_usable d), (parts_usable d);
    simpl; intros H; try discriminate; repeat split.
Qed.

Lemma from_error_fields_marked (data : value) (keys : list string) (t : string) :
  from_error_fields data keys = Ok (Some t) -> prefix error_marker t = true.
Proof.
  induction keys as [|k keys IH]; simpl; [discriminate |].
  destruct (py_get data k) as [v|e]; simpl; [| discriminate].
  destruct v as [| | | |s| |vd]; try exact IH.
  - destruct (nonblank s); [| exact IH].
    intros [= <-]. apply (prefix_append error_marker).
  - destruct (py_or _ _) as [| | | |msg| |]; try exact IH.
    destruct (nonblank msg); [| exact IH].
    intros [= <-]. apply (prefix_append error_marker).
Qed.

Lemma from_errors_marked (data : value) (t : string) :
  from_errors data = Ok (Some t) -> prefix error_marker t = true.
Proof.
  unfold from_errors.
  destruct (py_get data "errors") as [v|e]; simpl; [| discriminate].
  destruct v as [| | | | |[|[| | | |s| |first] ?]|]; try discriminate.
  - destruct (nonblank s); [| discriminate].
    intros [= <-]. apply (prefix_append error_marker).
  - destruct (py_or _ _) as [| | | |msg| |]; try discriminate.
    destruct (nonblank msg); [| discriminate].
    intros [= <-]. apply (prefix_append error_marker).
Qed.

Section MoreNormalizerFacts.

Variable py_str : value -> string.

(** What is left of [extract_text] when the blocks 1 to 3 find nothing. *)
Lemma extract_text_no_plain_text (d : list (string * value)) :
  no_plain_text d = true ->
  extract_text py_str (VDict d)
  = or_else (from_error_fields (VDict d) ["error"; "detail"; "description"])
      (or_else (from_errors (VDict d))
         (or_else (from_http_status py_str (VDict d))
            (Ok ("(A2A) unexpected response: " ++ py_str (VDict d))))).
Proof.
  intros H. destruct (no_plain_text_inv d H) as (Hc & Ht & Hp).
  unfold extract_text.
  rewrite (from_content_unusable d Hc), (from_top_level_unusable d Ht),
    (from_parts_unusable d Hp).
  reflexivity.
Qed.

(** X1. The normalizer returns on a mapping and on nothing else: any other
    payload makes it raise the [AttributeError] of the missing [get]. *)
Theorem normalizer_returns_iff_mapping (data : value) (outbound : option string) :
  match data with
  | VDict _ => exists reply, _extract_text_and_conv py_str data outbound = Ok reply
  | _ =>
      _extract_text_and_conv py_str data outbound
      = Raise (mkExn "AttributeError"
                 ("'" ++ type_name data ++ "' object has no attribute 'get'") false)
  end.
Proof.
  destruct data as [| | | | | |d]; try reflexivity.
  destruct (extract_dict py_str d outbound) as (t & _ & H); eauto.
Qed.

(** X2. A [content] that is itself a string is the text of the reply. *)
Theorem string_content_is_text
    (d : list (string * value)) (T : string) (outbound : option string)
    (Hcontent : dict_lookup d "content" = Some (VStr T)) :
  exists conv,
    _extract_text_and_conv py_str (VDict d) outbound
    = Ok (mkResponse (mkTextContent T) conv).
Proof.
  destruct (extract_dict py_str d outbound) as (t & Ht & H).
  assert (E : extract_text py_str (VDict d) = Ok T).
  { unfold extract_text, from_content; simpl.
    rewrite (dict_get_found _ _ _ Hcontent); reflexivity. }
  rewrite E in Ht; injection Ht as <-. eauto.
Qed.

(** X3. Without a usable [content], the text is the first string among
    [response], [text] and [message], in this order. *)
Theorem top_level_key_order
    (d : list (string * value)) (T : string) (outbound : option string)
    (Hcontent : content_usable d = false)
    (Hfirst : dict_get d "response" = VStr T \/
              (is_str (dict_get d "response") = false /\
               (dict_get d "text" = VStr T \/
                (is_str (dict_get d "text") = false /\
                 dict_get d "message" = VStr T)))) :
  exists conv,
    _extract_text_and_conv py_str (VDict d) outbound
    = Ok (mkResponse (mkTextContent T) conv).
Proof.
  destruct (extract_dict py_str d outbound) as (t & Ht & H).
  assert (E : extract_text py_str (VDict d) = Ok T).
  { unfold extract_text. rewrite (from_content_unusable d Hcontent).
    cbn [or_else from_top_level py_get rbind].
    destruct Hfirst as [-> | [Hr [-> | [Hx ->]]]]; [reflexivity | |].
    - destruct (dict_get d "response"); try discriminate; reflexivity.
    - destruct (dict_get d "response"); try discriminate;
        destruct (dict_get d "text"); try discriminate; reflexivity. }
  rewrite E in Ht; injection Ht as <-. eauto.
Qed.

(** X4. Without a usable [content] and without a string under [response],
    [text] or [message], the text is that of the first element of [parts];
    the elements after the first play no part. *)
Theorem first_part_text
    (d first : list (string * value)) (others : list value) (T : string)
    (outbound : option string)
    (Hcontent : content_usable d = false)
    (Htop : top_level_usable d = false)
    (Hparts : dict_lookup d "parts" = Some (VList (VDict first :: others)))
    (Htext : dict_lookup first "text" = Some (VStr T)) :
  exists conv,
    _extract_text_and_conv py_str (VDict d) outbound
    = Ok (mkResponse (mkTextContent T) conv).
Proof.
  destruct (extract_dict py_str d outbound) as (t & Ht & H).
  assert (E : extract_text py_str (VDict d) = Ok T).
  { unfold extract_text.
    rewrite (from_content_unusable d Hcontent), (from_top_level_unusable d Htop).
    unfold from_parts; simpl.
    rewrite (dict_get_found _ _ _ Hparts), (dict_get_found _ _ _ Htext).
    reflexivity. }
  rewrite E in Ht; injection Ht as <-. eauto.
Qed.

(** X5. Without a plain text, a non-blank string under [error] is reported
    behind the error marker, as it is: white space around it is kept. *)
Theorem error_string_reply
    (d : list (string * value)) (s : string) (outbound : option string)
    (Hplain : no_plain_text d = true)
    (Herror : dict_get d "error" = VStr s)
    (Hnonblank : nonblank s = true) :
  exists conv,
    _extract_text_and_conv py_str (VDict d) outbound
    = Ok (mkResponse (mkTextContent (error_marker ++ s)) conv).
Proof.
  destruct (extract_dict py_str d outbound) as (t & Ht & H).
  rewrite (extract_text_no_plain_text d Hplain) in Ht.
  cbn [from_error_fields py_get rbind] in Ht.
  rewrite Herror, Hnonblank in Ht.
  injection Ht as <-. eauto.
Qed.

(** X6. Without a plain text, a mapping under [error] is reported by its
    [message], or by its [text] when the [message] is missing or falsy. *)
Theorem error_mapping_reply
    (d e : list (string * value)) (m : string) (outbound : option string)
    (Hplain : no_plain_text d = true)
    (Herror : dict_get d "error" = VDict e)
    (Hmsg : dict_get e "message" = VStr m \/
            (truthy (dict_get e "message") = false /\ dict_get e "text" = VStr m))
    (Hnonblank : nonblank m = true) :
  exists conv,
    _extract_text_and_conv py_str (VDict d) outbound
    = Ok (mkResponse (mkTextContent (error_marker ++ m)) conv).
Proof.
  destruct (extract_dict py_str d outbound) as (t & Ht & H).
  rewrite (extract_text_no_plain_text d Hplain) in Ht.
  cbn [from_error_fields py_get rbind] in Ht.
  rewrite Herror in Ht.
  assert (Hor : py_or (dict_get e "message") (dict_get e "text") = VStr m).
  { unfold py_or. destruct Hmsg as [E | [E1 E2]].
    - rewrite E. destruct m; [discriminate Hnonblank | reflexivity].
    - rewrite E1; exact E2. }
  rewrite Hor, Hnonblank in Ht.
  injection Ht as <-. eauto.
Qed.

(** X9. A text that is not taken from the payload as it is carries a mark: when
    the blocks 1 to 3 find nothing, the reply begins with the error marker
    or with ["(A2A) "]. *)
Theorem synthesized_text_is_marked
    (d : list (string * value)) (outbound : option string)
    (Hplain : no_plain_text d = true) :
  exists reply,
    _extract_text_and_conv py_str (VDict d) outbound = Ok reply /\
    (prefix error_marker (reply_text reply) = true \/
     prefix "(A2A) " (reply_text reply) = true).
Proof.
  destruct (extract_dict py_str d outbound) as (t & Ht & H).
  eexists; split; [exact H |]. cbn [reply_text reply_content text].
  rewrite (extract_text_no_plain_text d Hplain) in Ht.
  destruct (from_error_fields (VDict d) ["error"; "detail"; "description"])
    as [[t1|]|e1] eqn:E1; cbn [or_else] in Ht; try discriminate.
  { injection Ht as <-. left. exact (from_error_fields_marked _ _ _ E1). }
  destruct (from_errors (VDict d)) as [[t2|]|e2] eqn:E2; cbn [or_else] in Ht;
    try discriminate.
  { injection Ht as <-. left. exact (from_errors_marked _ _ E2). }
  right. unfold from_http_status in Ht; simpl in Ht.
  destruct (truthy (dict_get d "_http_status")); simpl in Ht;
    injection Ht as <-.
  - apply (prefix_append "(A2A) " ("HTTP " ++ _)).
  - apply (prefix_append "(A2A) " ("unexpected response: " ++ _)).
Qed.

Lemma extract_text_unrecognised (d : list (string * value)) :
  Forall (fun k => dict_lookup d k = None) text_keys ->
  extract_text py_str (VDict d)
  = Ok (if truthy (dict_get d "_http_status")
        then "(A2A) HTTP " ++ py_str (dict_get d "_http_status")
             ++ ", body: " ++ py_str (VDict d)
        else "(A2A) unexpected response: " ++ py_str (VDict d)).
Proof.
  intros Hkeys. unfold text_keys in Hkeys.
  repeat match goal with
         | Hk : Forall _ (_ :: _) |- _ =>
             let Hhd := fresh "Hhd" in
             apply Forall_cons_iff in Hk; destruct Hk as [Hhd Hk];
             apply dict_get_missing in Hhd
         end.
  unfold extract_text, from_content, from_parts, from_errors, from_http_status;
    simpl.
  repeat match goal with
         | Hhd : dict_get d _ = VNone |- _ => rewrite Hhd; clear Hhd
         end.
  simpl.
  destruct (truthy (dict_get d "_http_status")); reflexivity.
Qed.

(** X10. A mapping with none of the keys the normalizer reads is echoed: with the
    status when [_http_status] is truthy, as unexpected otherwise. *)
Theorem unrecognised_payload_is_echoed
    (d : list (string * value)) (outbound : option string)
    (Hkeys : Forall (fun k => dict_lookup d k = None) text_keys) :
  exists conv,
    _extract_text_and_conv py_str (VDict d) outbound
    = Ok (mkResponse
            (mkTextContent
               (if truthy (dict_get d "_http_status")
                then "(A2A) HTTP " ++ py_str (dict_get d "_http_status")
                     ++ ", body: " ++ py_str (VDict d)
                else "(A2A) unexpected response: " ++ py_str (VDict d)))
            conv).
Proof.
  destruct (extract_dict py_str d outbound) as (t & Ht & H).
  rewrite (extract_text_unrecognised d Hkeys) in Ht.
  injection Ht as <-. eauto.
Qed.

(** X7. A blank string under [error] is passed over: the next error field that
    holds a non-blank string is the one reported. *)
Theorem blank_error_is_skipped
    (d : list (string * value)) (s t : string) (outbound : option string)
    (Hplain : no_plain_text d = true)
    (Herror : dict_get d "error" = VStr s)
    (Hblank : nonblank s = false)
    (Hdetail : dict_get d "detail" = VStr t)
    (Hnonblank : nonblank t = true) :
  exists conv,
    _extract_text_and_conv py_str (VDict d) outbound
    = Ok (mkResponse (mkTextContent (error_marker ++ t)) conv).
Proof.
  destruct (extract_dict py_str d outbound) as (t0 & Ht & H).
  rewrite (extract_text_no_plain_text d Hplain) in Ht.
  cbn [from_error_fields py_get rbind] in Ht.
  rewrite Herror, Hblank, Hdetail, Hnonblank in Ht.
  injection Ht as <-. eauto.
Qed.

(** X8. Without a plain text and without [error], [detail] and [description],
    the first element of [errors] is reported: a non-blank string as it is,
    a mapping by the first truthy of its [message], [detail] and [title]. *)
Theorem first_of_errors_reply
    (d : list (string * value)) (first : value) (others : list value)
    (m : string) (outbound : option string)
    (Hplain : no_plain_text d = true)
    (Hfields : Forall (fun k => dict_lookup d k = None)
                 ["error"; "detail"; "description"])
    (Herrors : dict_get d "errors" = VList (first :: others))
    (Hfirst : first = VStr m \/
              (exists f, first = VDict f /\
                 py_or (py_or (dict_get f "message") (dict_get f "detail"))
                       (dict_get f "title") = VStr m))
    (Hnonblank : nonblank m = true) :
  exists conv,
    _extract_text_and_conv py_str (VDict d) outbound
    = Ok (mkResponse (mkTextContent (error_marker ++ m)) conv).
Proof.
  destruct (extract_dict py_str d outbound) as (t & Ht & H).
  rewrite (extract_text_no_plain_text d Hplain) in Ht.
  repeat match goal with
         | Hk : Forall _ (_ :: _) |- _ =>
             let Hhd := fresh "Hhd" in
             apply Forall_cons_iff in Hk; destruct Hk as [Hhd Hk];
             apply dict_get_missing in Hhd
         end.
  cbn [from_error_fields py_get rbind] in Ht.
  repeat match goal with
         | Hhd : dict_get d _ = VNone |- _ => rewrite Hhd in Ht; clear Hhd
         end.
  unfold from_errors in Ht. cbn [or_else py_get rbind] in Ht.
  rewrite Herrors in Ht.
  destruct Hfirst as [-> | (f & -> & Hor)].
  - rewrite Hnonblank in Ht. injection Ht as <-. eauto.
  - rewrite Hor, Hnonblank in Ht. injection Ht as <-. eauto.
Qed.

End MoreNormalizerFacts.

(** * Further properties of the client *)

(** ** Strings *)

Lemma rstrip_by_last (p : ascii -> bool) (s : string) (c : ascii) :
  last_char (rstrip_by p s) = Some c -> p c = false.
Proof.
  induction s as [|a r IH]; simpl; [discriminate |].
  destruct (rstrip_by p r) as [|c' r'] eqn:E.
  - destruct (p a) eqn:Ha; simpl; [discriminate |].
    intros [= <-]; exact Ha.
  - intros H; apply IH. exact H.
Qed.

Lemma rstrip_by_stripped (p : ascii -> bool) (s : string) (c : ascii) :
  p c = true -> rstrip_by p (s ++ String c EmptyString) = rstrip_by p s.
Proof.
  intros Hc. induction s as [|a r IH]; simpl.
  - rewrite Hc; reflexivity.
  - rewrite IH; reflexivity.
Qed.

Lemma rstrip_by_kept (p : ascii -> bool) (s : string) :
  (forall c, last_char s = Some c -> p c = false) -> rstrip_by p s = s.
Proof.
  induction s as [|a r IH]; intros H; simpl; [reflexivity |].
  destruct r as [|b r'].
  - simpl. rewrite (H a eq_refl); reflexivity.
  - rewrite IH; [reflexivity | exact H].
Qed.

Lemma length_append (s t : string) :
  String.length (s ++ t) = String.length s + String.length t.
Proof. induction s as [|c s IH]; simpl; [reflexivity | rewrite IH; reflexivity]. Qed.

Lemma substring_all (t : string) : substring 0 (String.length t) t = t.
Proof. induction t as [|c t IH]; simpl; [reflexivity | rewrite IH; reflexivity]. Qed.

Lemma substring_append (s t : string) :
  substring (String.length s) (String.length t) (s ++ t) = t.
Proof. induction s as [|c s IH]; simpl; [apply substring_all | exact IH]. Qed.

Lemma endswith_append (s t : string) : endswith (s ++ t) t = true.
Proof.
  unfold endswith. rewrite length_append.
  replace (String.length s + String.length t - String.length t)
    with (String.length s) by lia.
  rewrite substring_append, String.eqb_refl, andb_true_r.
  apply Nat.leb_le; lia.
Qed.

Lemma append_inj (s t t' : string) : s ++ t = s ++ t' -> t = t'.
Proof.
  induction s as [|c s IH]; simpl; [trivial |].
  intros [= H]; exact (IH H).
Qed.

Lemma append_neq_self (s : string) (c : ascii) (t : string) : s <> s ++ String c t.
Proof.
  intros H. apply (f_equal String.length) in H.
  rewrite length_append in H; simpl in H; lia.
Qed.

(** ** The constructor and the addresses *)

(** X11. [A2AClient(url)] keeps a base address without a slash at its end, so that
    a slash ending the given address makes no difference; an address ending
    otherwise is kept as it is, and no address gives the empty base. *)
Theorem init_strips_trailing_slashes (url : string) (timeout : Z) :
  last_char (base_url (A2AClient_init (Some url) timeout)) <> Some "/"%char /\
  A2AClient_init (Some (url ++ "/")) timeout = A2AClient_init (Some url) timeout /\
  (last_char url <> Some "/"%char ->
   base_url (A2AClient_init (Some url) timeout) = url) /\
  base_url (A2AClient_init None timeout) = "".
Proof.
  unfold A2AClient_init, rstrip_slash; simpl.
  split; [| split; [| split]].
  - intros H. apply rstrip_by_last in H. discriminate.
  - f_equal. apply rstrip_by_stripped. reflexivity.
  - intros H. apply rstrip_by_kept.
    intros c Hc. destruct (Ascii.eqb_spec c "/"%char) as [->|]; [| reflexivity].
    contradiction.
  - reflexivity.
Qed.

(** X12. The addresses of one call are four or five, all different, and the
    first of them ends with [/a2a]. *)
Theorem candidates_shape (self : A2AClient) :
  NoDup (candidates self) /\
  List.length (candidates self)
  = (if endswith (base_url self) "/a2a" then 4 else 5)%nat /\
  (exists first rest,
     candidates self = first :: rest /\ endswith first "/a2a" = true).
Proof.
  assert (Hdistinct : NoDup [base_url self ++ "/a2a"; base_url self;
                             base_url self ++ "/send"; base_url self ++ "/message";
                             base_url self ++ "/messages"]).
  { repeat constructor; simpl; intros H;
      repeat match goal with
             | H : _ \/ _ |- _ => destruct H as [H | H]
             | H : False |- _ => contradiction
             | H : ?b ++ _ = ?b ++ _ |- _ => apply append_inj in H; discriminate
             | H : ?b = ?b ++ String _ _ |- _ => exact (append_neq_self _ _ _ H)
             | H : ?b ++ String _ _ = ?b |- _ =>
                 symmetry in H; exact (append_neq_self _ _ _ H)
             end. }
  unfold candidates.
  destruct (endswith (base_url self) "/a2a") eqn:E; simpl.
  - split; [| split].
    + inversion Hdistinct; assumption.
    + reflexivity.
    + eexists; eexists; split; [reflexivity | exact E].
  - split; [| split].
    + exact Hdistinct.
    + reflexivity.
    + eexists; eexists; split; [reflexivity | apply endswith_append].
Qed.

Lemma init_strips_trailing_slashes_witness :
  base_url (A2AClient_init (Some "http://localhost:6000/a2a") 60)
  = "http://localhost:6000/a2a".
Proof.
  apply (proj1 (proj2 (proj2 (init_strips_trailing_slashes
                                "http://localhost:6000/a2a" 60)))).
  discriminate.
Defined.

(** ** The loop and the reply *)


Section MoreClientFacts.

Variable py_str : value -> string.
Variable World : Type.
Variable post :
  string -> value -> Z -> list (string * string) -> IO World Response.

(** A loop that returns has met an answer, unless it had no address and no
    exception to begin with. *)
Lemma try_candidates_ok_inv (self : A2AClient) (p : value) (v : value) (w' : World) :
  forall (urls : list string) (last_err : option exn) (w : World),
    try_candidates post self p urls last_err w = (Ok v, w') ->
    (exists pre url rest r,
       urls = (pre ++ url :: rest)%list /\
       all_raise post (fun _ => True) self p pre w /\
       post url p (timeout self) headers (world_after post self p pre w) = (Ok r, w') /\
       v = decode_response r) \/
    (urls = [] /\ last_err = None).
Proof.
  induction urls as [|u urls IH]; intros last_err w H; simpl in H.
  - right. destruct last_err; [discriminate | split; reflexivity].
  - left. unfold catch at 1, bind at 1 in H.
    destruct (post u p (timeout self) headers w) as [[r|e] w1] eqn:E.
    + unfold ret in H. injection H as <- <-.
      exists [], u, urls, r. simpl. repeat split. exact E.
    + destruct (IH (Some e) w1 H)
        as [(pre & url & rest & r & -> & Hall & Hok & ->) | [_ Hnone]];
        [| discriminate].
      exists (u :: pre), url, rest, r. simpl. rewrite E. simpl.
      repeat split; assumption.
Qed.

(** A loop that raises has seen every address raise. *)
Lemma try_candidates_raise_inv (self : A2AClient) (p : value) (e : exn) (w' : World) :
  forall (urls : list string) (last_err : option exn) (w : World),
    try_candidates post self p urls last_err w = (Raise e, w') ->
    all_raise post (fun _ => True) self p urls w /\
    w' = world_after post self p urls w.
Proof.
  induction urls as [|u urls IH]; intros last_err w H; simpl in *.
  - destruct last_err; unfold raise, ret in H; [| discriminate].
    injection H as _ <-. split; [exact I | reflexivity].
  - unfold catch at 1, bind at 1 in H.
    destruct (post u p (timeout self) headers w) as [[r|e1] w1] eqn:E;
      [discriminate |].
    simpl. destruct (IH (Some e1) w1 H) as [Hall ->].
    repeat split; assumption.
Qed.

(** X13. [_try_post] returns exactly the decoded first answer of the loop: the
    [return None] after the loop is never reached. *)
Theorem try_post_returns_first_answer
    (self : A2AClient) (p : value) (w : World) (v : value) (w' : World) :
  _try_post post self p w = (Ok v, w') <->
  exists r, first_answer post self p w r w' /\ v = decode_response r.
Proof.
  unfold _try_post, first_answer. split.
  - intros H.
    destruct (try_candidates_ok_inv self p v w' _ _ _ H)
      as [(pre & url & rest & r & Hsplit & Hall & Hok & ->) | [Hnil _]].
    + exists r. split; [| reflexivity]. exists pre, url, rest. repeat split; assumption.
    + destruct (candidates_last self) as (pre & Hsplit & _).
      rewrite Hsplit in Hnil. destruct pre; discriminate.
  - intros (r & (pre & url & rest & Hsplit & Hall & Hok) & ->).
    rewrite Hsplit.
    eapply try_candidates_first_ok; eassumption.
Qed.

(** X14. [_try_post] raises exactly when every address raises; the world it
    leaves is then the one after one request to each address, in order. *)
Theorem try_post_raises_iff_all_raise (self : A2AClient) (p : value) (w : World) :
  (forall e w',
     _try_post post self p w = (Raise e, w') ->
     all_raise post (fun _ => True) self p (candidates self) w /\
     w' = world_after post self p (candidates self) w) /\
  (all_raise post (fun _ => True) self p (candidates self) w ->
   exists e,
     _try_post post self p w
     = (Raise e, world_after post self p (candidates self) w)).
Proof.
  unfold _try_post. split.
  - intros e w' H. exact (try_candidates_raise_inv self p e w' _ _ _ H).
  - intros Hall.
    destruct (candidates_last self) as (pre & Hsplit & _).
    rewrite Hsplit in Hall.
    destruct (try_candidates_all_raise World post _ self p _ pre None w Hall)
      as (e & w' & _ & _ & Hrun).
    rewrite <- Hsplit in Hrun.
    exists e. rewrite Hrun. f_equal.
    exact (proj2 (try_candidates_raise_inv self p e w' _ _ _ Hrun)).
Qed.

Lemma first_answer_try_post
    (self : A2AClient) (p : value) (w : World) (r : Response) (w' : World) :
  first_answer post self p w r w' ->
  _try_post post self p w = (Ok (decode_response r), w').
Proof.
  intros (pre & url & rest & Hsplit & Hall & Hok).
  unfold _try_post. rewrite Hsplit.
  eapply try_candidates_first_ok; eassumption.
Qed.

Lemma decode_response_wrapped (r : Response) :
  indicates_json r = false \/ (exists e, json r = Raise e) ->
  decode_response r
  = VDict [("response", VStr (body_text r)); ("_http_status", VInt (status_code r))].
Proof.
  unfold indicates_json, decode_response.
  intros [-> | [e ->]]; [reflexivity |].
  destruct (contains _ _); reflexivity.
Qed.


(** X16. A body that is not JSON, or does not decode, is relayed as it is,
    whatever the status code, under the conversation id of the outbound
    message. *)
Theorem plain_text_body_is_relayed
    (self : A2AClient) (message : Message) (w : World) (r : Response) (w' : World)
    (Hanswer : first_answer post self (payload_of message) w r w')
    (Hplain : indicates_json r = false \/ (exists e, json r = Raise e)) :
  send_message py_str post self message w
  = (Ok (mkResponse (mkTextContent (body_text r))
                    (of_optional (conversation_id message))), w').
Proof.
  unfold send_message, catch, bind, lift.
  rewrite (first_answer_try_post self _ w r w' Hanswer).
  rewrite (decode_response_wrapped r Hplain).
  reflexivity.
Qed.

(** X17. A JSON body that is not a mapping, a list or a number for one, gives
    the error reply of the [AttributeError] on [get], under the conversation
    id of the outbound message. *)
Theorem non_mapping_json_is_an_error
    (self : A2AClient) (message : Message) (w : World) (r : Response) (w' : World)
    (v : value)
    (Hanswer : first_answer post self (payload_of message) w r w')
    (Hjson : indicates_json r = true)
    (Hbody : json r = Ok v)
    (Hnomap : is_dict v = false) :
  send_message py_str post self message w
  = (Ok (mkResponse
           (mkTextContent ("[error] AttributeError: '" ++ type_name v
                           ++ "' object has no attribute 'get'"))
           (of_optional (conversation_id message))), w').
Proof.
  unfold send_message, catch, bind, lift.
  rewrite (first_answer_try_post self _ w r w' Hanswer).
  unfold decode_response. unfold indicates_json in Hjson. rewrite Hjson, Hbody.
  destruct v as [| | | | | |d]; try discriminate; reflexivity.
Qed.

(** X18. A bridge that sends the request back returns the message to its
    sender: the text of the reply is the text of the message, and its
    conversation id that of the message when this is a non-empty string. *)
Theorem echoed_request_round_trip
    (self : A2AClient) (message : Message) (w : World) (r : Response) (w' : World)
    (Hanswer : first_answer post self (payload_of message) w r w')
    (Hjson : indicates_json r = true)
    (Hbody : json r = Ok (payload_of message)) :
  exists conv,
    send_message py_str post self message w
    = (Ok (mkResponse (mkTextContent (text (content message))) conv), w') /\
    (forall s, conversation_id message = Some s -> s <> "" -> conv = VStr s).
Proof.
  unfold send_message, catch, bind, lift.
  rewrite (first_answer_try_post self _ w r w' Hanswer).
  unfold decode_response. unfold indicates_json in Hjson. rewrite Hjson, Hbody.
  unfold payload_of.
  cbn [dict_setdefault String.eqb Ascii.eqb Bool.eqb].
  match goal with
  | |- context [_extract_text_and_conv py_str (VDict ?d) ?o] =>
      destruct (extract_dict py_str d o) as (t & Ht & ->);
      exists (conv_by_priority d o)
  end.
  split.
  - cbv in Ht. injection Ht as <-. reflexivity.
  - intros s Hs Hne. rewrite Hs.
    destruct s as [|c s]; [contradiction |]. reflexivity.
Qed.

Lemma setdefault_absent (d : list (string * value)) (k : string) (v : value) :
  dict_lookup d k = None -> dict_setdefault d k v = (d ++ [(k, v)])%list.
Proof.
  induction d as [|[k' v'] d IH]; simpl; [reflexivity |].
  destruct (String.eqb k' k); [discriminate |].
  intros H; rewrite (IH H); reflexivity.
Qed.

(** X19. A JSON mapping with none of the keys the normalizer reads, from a
    response whose status code is not 0, is echoed with that status; the
    body shown has the [_http_status] entry the client added at its end. *)
Theorem unrecognised_json_reply
    (self : A2AClient) (message : Message) (w : World) (r : Response) (w' : World)
    (body : list (string * value))
    (Hanswer : first_answer post self (payload_of message) w r w')
    (Hjson : indicates_json r = true)
    (Hbody : json r = Ok (VDict body))
    (Hkeys : Forall (fun k => dict_lookup body k = None)
               ("_http_status" :: text_keys))
    (Hstatus : status_code r <> 0%Z) :
  exists conv,
    send_message py_str post self message w
    = (Ok (mkResponse
             (mkTextContent
                ("(A2A) HTTP " ++ py_str (VInt (status_code r)) ++ ", body: "
                 ++ py_str (VDict (body ++ [("_http_status", VInt (status_code r))])%list)))
             conv), w').
Proof.
  apply Forall_cons_iff in Hkeys. destruct Hkeys as [Hown Hkeys].
  unfold send_message, catch, bind, lift.
  rewrite (first_answer_try_post self _ w r w' Hanswer).
  unfold decode_response. unfold indicates_json in Hjson. rewrite Hjson, Hbody.
  set (d := dict_setdefault body "_http_status" (VInt (status_code r))).
  destruct (extract_dict py_str d (conversation_id message)) as (t & Ht & ->).
  assert (Hd : Forall (fun k => dict_lookup d k = None) text_keys).
  { apply Forall_forall. intros k Hin.
    unfold d. rewrite lookup_setdefault_other.
    - exact (proj1 (Forall_forall _ _) Hkeys k Hin).
    - intros ->. unfold text_keys in Hin. simpl in Hin.
      repeat (destruct Hin as [Hin | Hin]; [discriminate |]). exact Hin. }
  rewrite (extract_text_unrecognised py_str d Hd) in Ht.
  assert (Hst : dict_get d "_http_status" = VInt (status_code r)).
  { unfold dict_get, d. rewrite lookup_setdefault_same, Hown. reflexivity. }
  rewrite Hst in Ht. simpl in Ht.
  destruct (Z.eqb_spec (status_code r) 0) as [E|_]; [contradiction |].
  simpl in Ht. injection Ht as <-.
  unfold d. rewrite (setdefault_absent body _ _ Hown).
  eexists. reflexivity.
Qed.

End MoreClientFacts.

(** * Further examples *)

Lemma string_content_is_text_witness :
  exists conv,
    _extract_text_and_conv show_opaque
      (VDict [("content", VStr "hi"); ("response", VStr "other")]) None
    = Ok (mkResponse (mkTextContent "hi") conv).
Proof.
  apply (string_content_is_text show_opaque
           [("content", VStr "hi"); ("response", VStr "other")] "hi" None).
  reflexivity.
Defined.

Lemma top_level_key_order_witness :
  exists conv,
    _extract_text_and_conv show_opaque
      (VDict [("message", VStr "third"); ("text", VStr "second");
              ("response", VInt 7); ("content", VDict [("type", VStr "text")])])
      None
    = Ok (mkResponse (mkTextContent "second") conv).
Proof.
  apply (top_level_key_order show_opaque
           [("message", VStr "third"); ("text", VStr "second");
            ("response", VInt 7); ("content", VDict [("type", VStr "text")])]
           "second" None).
  - reflexivity.
  - right. split; [reflexivity |]. left. reflexivity.
Defined.

Lemma first_part_text_witness :
  exists conv,
    _extract_text_and_conv show_opaque
      (VDict [("parts", VList [VDict [("text", VStr "one"); ("type", VStr "text")];
                               VDict [("text", VStr "two")]]);
              ("metadata", VDict [("conversation_id", VStr "m1")])])
      (Some "c1")
    = Ok (mkResponse (mkTextContent "one") conv).
Proof.
  apply (first_part_text show_opaque
           [("parts", VList [VDict [("text", VStr "one"); ("type", VStr "text")];
                             VDict [("text", VStr "two")]]);
            ("metadata", VDict [("conversation_id", VStr "m1")])]
           [("text", VStr "one"); ("type", VStr "text")]
           [VDict [("text", VStr "two")]] "one" (Some "c1"));
    reflexivity.
Defined.

Lemma error_string_reply_witness :
  exists conv,
    _extract_text_and_conv show_opaque
      (VDict [("error", VStr " not found "); ("_http_status", VInt 404)]) None
    = Ok (mkResponse (mkTextContent "[error]  not found ") conv).
Proof.
  apply (error_string_reply show_opaque
           [("error", VStr " not found "); ("_http_status", VInt 404)]
           " not found " None);
    reflexivity.
Defined.

Lemma error_mapping_reply_witness :
  exists conv,
    _extract_text_and_conv show_opaque
      (VDict [("error", VDict [("message", VStr ""); ("text", VStr "quota")])]) None
    = Ok (mkResponse (mkTextContent "[error] quota") conv).
Proof.
  apply (error_mapping_reply show_opaque
           [("error", VDict [("message", VStr ""); ("text", VStr "quota")])]
           [("message", VStr ""); ("text", VStr "quota")] "quota" None).
  - reflexivity.
  - reflexivity.
  - right. split; reflexivity.
  - reflexivity.
Defined.

Lemma synthesized_text_is_marked_witness :
  exists reply,
    _extract_text_and_conv show_opaque
      (VDict [("errors", VList [VDict [("title", VStr "bad request")]])]) None
    = Ok reply /\
    (prefix "[error] " (reply_text reply) = true \/
     prefix "(A2A) " (reply_text reply) = true).
Proof.
  apply (synthesized_text_is_marked show_opaque
           [("errors", VList [VDict [("title", VStr "bad request")]])] None).
  reflexivity.
Defined.

Lemma unrecognised_payload_is_echoed_witness :
  exists conv,
    _extract_text_and_conv show_opaque
      (VDict [("status", VStr "ok"); ("_http_status", VInt 200)]) None
    = Ok (mkResponse (mkTextContent "(A2A) HTTP <int>, body: <dict>") conv).
Proof.
  apply (unrecognised_payload_is_echoed show_opaque
           [("status", VStr "ok"); ("_http_status", VInt 200)] None).
  repeat constructor.
Defined.

Lemma try_post_returns_first_answer_witness :
  exists r,
    first_answer (post_flaky 2 text_reply) a_client VNone []
      r ["http://localhost:6000/a2a"; "http://localhost:6000";
         "http://localhost:6000/send"] /\
    VDict [("response", VStr "not found"); ("_http_status", VInt 404)]
    = decode_response r.
Proof.
  apply (proj1 (try_post_returns_first_answer Log (post_flaky 2 text_reply)
                  a_client VNone [] _ _)).
  reflexivity.
Defined.

Lemma try_post_raises_iff_all_raise_witness :
  exists e,
    _try_post post_refused a_client VNone []
    = (Raise e,
       ["http://localhost:6000/a2a"; "http://localhost:6000";
        "http://localhost:6000/send"; "http://localhost:6000/message";
        "http://localhost:6000/messages"]).
Proof.
  apply (proj2 (try_post_raises_iff_all_raise Log post_refused a_client VNone [])).
  simpl. repeat split.
Defined.

Lemma plain_text_body_is_relayed_witness :
  send_message show_opaque (post_flaky 1 text_reply) a_client a_message []
  = (Ok (mkResponse (mkTextContent "not found") (VStr "c1")),
     ["http://localhost:6000/a2a"; "http://localhost:6000"]).
Proof.
  apply (plain_text_body_is_relayed show_opaque Log (post_flaky 1 text_reply)
           a_client a_message [] text_reply).
  - exists ["http://localhost:6000/a2a"], "http://localhost:6000",
      ["http://localhost:6000/send"; "http://localhost:6000/message";
       "http://localhost:6000/messages"].
    split; [reflexivity |]. split; [simpl; split; exact I | reflexivity].
  - left. reflexivity.
Defined.

Lemma non_mapping_json_is_an_error_witness :
  send_message show_opaque (post_flaky 0 list_reply) a_client a_message []
  = (Ok (mkResponse
           (mkTextContent "[error] AttributeError: 'list' object has no attribute 'get'")
           (VStr "c1")),
     ["http://localhost:6000/a2a"]).
Proof.
  apply (non_mapping_json_is_an_error show_opaque Log (post_flaky 0 list_reply)
           a_client a_message [] list_reply _ (VList [VStr "a"; VStr "b"])).
  - exists [], "http://localhost:6000/a2a",
      ["http://localhost:6000"; "http://localhost:6000/send";
       "http://localhost:6000/message"; "http://localhost:6000/messages"].
    split; [reflexivity |]. split; [exact I | reflexivity].
  - reflexivity.
  - reflexivity.
  - reflexivity.
Defined.

Lemma echoed_request_round_trip_witness :
  exists conv,
    send_message show_opaque post_echo a_client a_message []
    = (Ok (mkResponse (mkTextContent "hello") conv), ["http://localhost:6000/a2a"]) /\
    (forall s, Some "c1" = Some s -> s <> "" -> conv = VStr s).
Proof.
  apply (echoed_request_round_trip show_opaque Log post_echo a_client a_message []
           (mkHTTP 200 (Some "application/json") (Ok (payload_of a_message))
              (show_opaque (payload_of a_message)))).
  - exists [], "http://localhost:6000/a2a",
      ["http://localhost:6000"; "http://localhost:6000/send";
       "http://localhost:6000/message"; "http://localhost:6000/messages"].
    split; [reflexivity |]. split; [exact I | reflexivity].
  - reflexivity.
  - reflexivity.
Defined.

Lemma blank_error_is_skipped_witness :
  exists conv,
    _extract_text_and_conv show_opaque
      (VDict [("error", VStr "  "); ("detail", VStr "no route")]) None
    = Ok (mkResponse (mkTextContent "[error] no route") conv).
Proof.
  apply (blank_error_is_skipped show_opaque
           [("error", VStr "  "); ("detail", VStr "no route")] "  " "no route" None);
    reflexivity.
Defined.

Lemma first_of_errors_reply_witness :
  exists conv,
    _extract_text_and_conv show_opaque
      (VDict [("errors", VList [VDict [("detail", VStr "bad id"); ("title", VStr "400")];
                                VStr "second"])])
      None
    = Ok (mkResponse (mkTextContent "[error] bad id") conv).
Proof.
  apply (first_of_errors_reply show_opaque
           [("errors", VList [VDict [("detail", VStr "bad id"); ("title", VStr "400")];
                              VStr "second"])]
           (VDict [("detail", VStr "bad id"); ("title", VStr "400")])
           [VStr "second"] "bad id" None).
  - reflexivity.
  - repeat constructor.
  - reflexivity.
  - right. eexists. split; reflexivity.
  - reflexivity.
Defined.

Lemma unrecognised_json_reply_witness :
  exists conv,
    send_message show_opaque
      (post_flaky 0 (mkHTTP 202 (Some "application/json")
                       (Ok (VDict [("status", VStr "queued")]))
                       ("{" ++ quoted "status" ++ ": " ++ quoted "queued" ++ "}")))
      a_client a_message []
    = (Ok (mkResponse (mkTextContent "(A2A) HTTP <int>, body: <dict>") conv),
       ["http://localhost:6000/a2a"]).
Proof.
  apply (unrecognised_json_reply show_opaque Log _ a_client a_message []
           (mkHTTP 202 (Some "application/json")
              (Ok (VDict [("status", VStr "queued")]))
              ("{" ++ quoted "status" ++ ": " ++ quoted "queued" ++ "}"))
           _ [("status", VStr "queued")]).
  - exists [], "http://localhost:6000/a2a",
      ["http://localhost:6000"; "http://localhost:6000/send";
       "http://localhost:6000/message"; "http://localhost:6000/messages"].
    split; [reflexivity |]. split; [exact I | reflexivity].
  - reflexivity.
  - reflexivity.
  - repeat constructor.
  - discriminate.
Defined.
